(** * bipmap: the repeating beep timer and its command loop

    A shallow embedding of [bipmap.py]: the [RepeatTimer] class, the
    [BeepController] class and the command loop of [main], together with
    the parts of the Python runtime they lean on ([threading.Timer],
    [str.strip], [str.split], [int], [str]) and of the pygame mixer. *)

From Stdlib Require Import ZArith QArith Lia Bool Ascii String List.
From Stdlib Require Import Numbers.DecimalString Numbers.DecimalPos.
From stdpp Require Import base option list gmap strings.

Local Open Scope Z_scope.
Local Open Scope string_scope.

(** ** Python strings

    A [str] is modelled as a Rocq [string] whose characters are the code
    points below 256.  Below 256 the decimal digits are exactly ['0'..'9']
    and the white space of [str.isspace] is the set listed in
    [isspace]. *)
Module Py.

Definition isspace (c : ascii) : bool :=
  let n := nat_of_ascii c in
  ((9 <=? n)%nat && (n <=? 13)%nat)
  || ((28 <=? n)%nat && (n <=? 32)%nat)
  || (n =? 133)%nat || (n =? 160)%nat.

Definition isdigit (c : ascii) : bool :=
  let n := nat_of_ascii c in (48 <=? n)%nat && (n <=? 57)%nat.

Definition digit_value (c : ascii) : Z := Z.of_nat (nat_of_ascii c) - 48.

Fixpoint lstrip (s : string) : string :=
  match s with
  | String c r => if isspace c then lstrip r else s
  | EmptyString => EmptyString
  end.

Fixpoint rstrip (s : string) : string :=
  match s with
  | String c r =>
      match rstrip r with
      | EmptyString => if isspace c then EmptyString else String c EmptyString
      | r' => String c r'
      end
  | EmptyString => EmptyString
  end.

(** [s.strip()] *)
Definition strip (s : string) : string := rstrip (lstrip s).

(** [s.startswith(p)] *)
Definition startswith (s p : string) : bool := String.prefix p s.

(** [s.split()]: the maximal runs of characters that are not white
    space.  [cur] is the run being read, in reverse. *)
Fixpoint split_ws (cur : list ascii) (s : string) : list string :=
  let flush r :=
    match cur with
    | [] => r
    | _ => string_of_list_ascii (rev cur) :: r
    end in
  match s with
  | EmptyString => flush []
  | String c r =>
      if isspace c then flush (split_ws [] r) else split_ws (c :: cur) r
  end.

Definition split (s : string) : list string := split_ws [] s.

(** [s.split(" ", 1)]: cut at the first space character, if any. *)
Fixpoint split_space1 (s : string) : list string :=
  match s with
  | EmptyString => [EmptyString]
  | String c r =>
      if Ascii.eqb c " "%char then [EmptyString; r]
      else match split_space1 r with
           | h :: t => String c h :: t
           | [] => []
           end
  end.

(** The digits of an integer literal: decimal digits, with single
    underscores allowed between two digits only. *)
Fixpoint int_digits (acc : Z) (after_digit : bool) (s : string) : option Z :=
  match s with
  | EmptyString => if after_digit then Some acc else None
  | String c r =>
      if isdigit c then int_digits (10 * acc + digit_value c) true r
      else if Ascii.eqb c "_"%char
           then (if after_digit then int_digits acc false r else None)
           else None
  end.

(** [int(s)] in base 10; [None] stands for [ValueError].  (The limit
    on the number of digits that recent interpreters apply to very
    long literals is not modelled.) *)
Definition int (s : string) : option Z :=
  match strip s with
  | String c r =>
      if Ascii.eqb c "+"%char then int_digits 0 false r
      else if Ascii.eqb c "-"%char then Z.opp <$> int_digits 0 false r
      else int_digits 0 false (String c r)
  | EmptyString => None
  end.

(** [str(n)] for an [int] *)
Definition str (n : Z) : string := NilZero.string_of_int (Z.to_int n).

End Py.

(** ** The world the program runs in *)

(** What the program can print, one constructor per message. *)
Inductive Msg :=
| MsgInfo (volume delay : Z)      (* [INFO] - Volume : v%  |  Delay : ds *)
| MsgSoundLoaded (s : string)     (* New sound loaded: s *)
| MsgSoundError (s : string)      (* Error loading sound 's': ... *)
| MsgPaused                       (* Timer paused. *)
| MsgResumed                      (* Timer resumed. *)
| MsgInvalidVolume                (* Invalid volume value. *)
| MsgInvalidDelay                 (* Invalid delay value. *)
| MsgInvalidSound                 (* Invalid sound filename/path. *)
| MsgExiting                      (* Exiting program. *)
| MsgUsage.                       (* Invalid command. Try: ... *)

(** A [threading.Timer] thread.  Its [run] method is
    [[
      self.finished.wait(self.interval)
      if not self.finished.is_set():
          self.function()
      self.finished.set()
    ]]
    and [cancel] sets [finished].  A thread is [Waiting] until its wait
    ends, [Committed] once it has seen [finished] unset and is about to
    call its function (a fire in flight), and [Done] afterwards. *)
Inductive Phase := Waiting | Committed | Done.

Record PyTimer := mkPyTimer {
  t_interval : Z;
  t_finished : bool;
  t_phase : Phase
}.

(** The fields of a [RepeatTimer]; [_timer] is a handle into the list
    of timer threads, [None] for Python's [None].  The callback
    [function] is [BeepController.dong], passed to the methods that call
    it. *)
Record RepeatTimer := mkRepeatTimer {
  interval : Z;
  _timer : option nat;
  is_running : bool
}.

Record BeepController := mkBeepController {
  sound : string;
  delay : Z;
  volume : Z;
  paused : bool;
  timer : RepeatTimer
}.

(** [pygame.mixer.music]: the music that is loaded, the gain last
    requested with [set_volume], and the playbacks so far (newest
    first), each with the music and the gain it was requested at.  The
    gain [volume / 100.0] is kept as the exact rational. *)
Record Mixer := mkMixer {
  music : option string;
  music_volume : Q;
  played : list (string * Q)
}.

Record World := mkWorld {
  threads : list PyTimer;
  beeper : BeepController;
  mixer : Mixer;
  config : gmap string string;       (* config["DEFAULT"] *)
  config_file : gmap string string;  (* the DEFAULT section of config.txt *)
  stdout : list Msg                  (* newest first *)
}.

(** The file system and the audio back end. *)
Record Env := mkEnv {
  os_path_isabs : string -> bool;
  os_path_join : string -> string -> string;
  os_path_isfile : string -> bool;
  script_dir : string;               (* os.path.dirname(__file__) *)
  mixer_can_load : string -> bool    (* mixer.music.load does not raise *)
}.

Definition with_threads (w : World) (ts : list PyTimer) : World :=
  mkWorld ts (beeper w) (mixer w) (config w) (config_file w) (stdout w).
Definition with_beeper (w : World) (b : BeepController) : World :=
  mkWorld (threads w) b (mixer w) (config w) (config_file w) (stdout w).
Definition with_mixer (w : World) (m : Mixer) : World :=
  mkWorld (threads w) (beeper w) m (config w) (config_file w) (stdout w).
Definition with_timer (w : World) (t : RepeatTimer) : World :=
  let b := beeper w in
  with_beeper w (mkBeepController (sound b) (delay b) (volume b) (paused b) t).
Definition print (m : Msg) (w : World) : World :=
  mkWorld (threads w) (beeper w) (mixer w) (config w) (config_file w)
          (m :: stdout w).

(** [config["DEFAULT"][k] = v] followed by [config.write(f)] on
    [config.txt]; the write is taken to succeed. *)
Definition save_config (k v : string) (w : World) : World :=
  let c := <[k := v]> (config w) in
  mkWorld (threads w) (beeper w) (mixer w) c c (stdout w).

(** ** pygame.mixer.music *)
Module Music.

(** [mixer.music.load(s)]: [None] when it raises; the music loaded
    before stays loaded then. *)
Definition load (env : Env) (s : string) (m : Mixer) : option Mixer :=
  if mixer_can_load env s
  then Some (mkMixer (Some s) (music_volume m) (played m))
  else None.

(** [mixer.music.set_volume(g)]: the gain as the caller requests it. *)
Definition set_volume (g : Q) (m : Mixer) : Mixer :=
  mkMixer (music m) g (played m).

(** [mixer.music.play()]; with no music loaded it raises and nothing
    is played. *)
Definition play (m : Mixer) : Mixer :=
  match music m with
  | Some s => mkMixer (music m) (music_volume m) ((s, music_volume m) :: played m)
  | None => m
  end.

End Music.

(** A thread that will call its function unless it is cancelled first,
    and a thread that is already bound to call it. *)
Definition scheduled (t : PyTimer) : bool :=
  match t_phase t with
  | Waiting => negb (t_finished t)
  | _ => false
  end.

Definition in_flight (t : PyTimer) : bool :=
  match t_phase t with
  | Committed => true
  | _ => false
  end.

Definition pending (t : PyTimer) : bool := scheduled t || in_flight t.

(** ** threading.Timer *)
Module Timer.

(** [t.cancel()] *)
Definition cancel (t : PyTimer) : PyTimer :=
  mkPyTimer (t_interval t) true (t_phase t).

(** The wait of a thread ends: it reads [finished] and either commits
    to calling its function or ends. *)
Definition wait_ends (t : PyTimer) : PyTimer :=
  match t_phase t with
  | Waiting =>
      mkPyTimer (t_interval t) (t_finished t)
                (if t_finished t then Done else Committed)
  | _ => t
  end.

(** The last statement of [run]: [self.finished.set()]. *)
Definition finish (t : PyTimer) : PyTimer :=
  mkPyTimer (t_interval t) true Done.

(** The wait of thread [h] ends. *)
Definition wake (h : nat) (w : World) : World :=
  with_threads w (alter wait_ends h (threads w)).

(** A committed thread [h] calls its function and then sets
    [finished]. *)
Definition run (function : World -> World) (h : nat) (w : World) : World :=
  match threads w !! h with
  | Some t =>
      if in_flight t then
        let w' := function w in
        with_threads w' (alter finish h (threads w'))
      else w
  | None => w
  end.

End Timer.

(** ** class RepeatTimer *)
Module RepeatTimer.

(** [start(self)] *)
Definition start (w : World) : World :=
  let rt := timer (beeper w) in
  if negb (is_running rt) then
    let h := length (threads w) in
    let w1 := with_threads w (threads w ++ [mkPyTimer (interval rt) false Waiting]) in
    with_timer w1 (mkRepeatTimer (interval rt) (Some h) true)
  else w.

(** [_run(self)] *)
Definition _run (function : World -> World) (w : World) : World :=
  let rt := timer (beeper w) in
  let w1 := with_timer w (mkRepeatTimer (interval rt) (_timer rt) false) in
  function (start w1).

(** [stop(self)] *)
Definition stop (w : World) : World :=
  let rt := timer (beeper w) in
  let w1 :=
    match _timer rt with
    | Some h => with_threads w (alter Timer.cancel h (threads w))
    | None => w
    end in
  with_timer w1 (mkRepeatTimer (interval rt) (_timer rt) false).

(** [self.interval = d], as [BeepController.set_delay] does it *)
Definition set_interval (d : Z) (w : World) : World :=
  let rt := timer (beeper w) in
  with_timer w (mkRepeatTimer d (_timer rt) (is_running rt)).

End RepeatTimer.

(** ** class BeepController *)
Module BeepController.

Definition with_sound (s : string) (w : World) : World :=
  let b := beeper w in
  with_beeper w (mkBeepController s (delay b) (volume b) (paused b) (timer b)).
Definition with_delay (d : Z) (w : World) : World :=
  let b := beeper w in
  with_beeper w (mkBeepController (sound b) d (volume b) (paused b) (timer b)).
Definition with_volume (v : Z) (w : World) : World :=
  let b := beeper w in
  with_beeper w (mkBeepController (sound b) (delay b) v (paused b) (timer b)).
Definition with_paused (p : bool) (w : World) : World :=
  let b := beeper w in
  with_beeper w (mkBeepController (sound b) (delay b) (volume b) p (timer b)).

(** [self.volume / 100.0] *)
Definition gain (v : Z) : Q := Qmake v 100.

(** [dong(self)], the function the timer calls at each fire *)
Definition dong (w : World) : World :=
  if negb (paused (beeper w)) then
    with_mixer w (Music.play (Music.set_volume (gain (volume (beeper w))) (mixer w)))
  else w.

(** [__init__(self, sound, delay, volume)] in a fresh process whose
    configuration is [cfg]; [None] when the sound cannot be loaded and
    the process exits with status 1. *)
Definition __init__ (env : Env) (s : string) (d v : Z)
           (cfg : gmap string string) : option World :=
  let b := mkBeepController s d v false (mkRepeatTimer d None false) in
  let w := mkWorld [] b (mkMixer None 1%Q []) cfg cfg [] in
  match Music.load env s (mixer w) with
  | Some m => Some (RepeatTimer.start (with_mixer w m))
  | None => None
  end.

Definition info (w : World) : Msg :=
  MsgInfo (volume (beeper w)) (delay (beeper w)).

(** [set_volume(self, volume)] *)
Definition set_volume (v : Z) (w : World) : World :=
  let w1 := with_volume v w in
  print (info w1) w1.

(** [set_delay(self, delay)] *)
Definition set_delay (d : Z) (w : World) : World :=
  let w1 := RepeatTimer.set_interval d (with_delay d w) in
  print (info w1) w1.

(** [set_sound(self, sound)] *)
Definition set_sound (env : Env) (s : string) (w : World) : World :=
  let w1 := with_sound s w in
  match Music.load env s (mixer w1) with
  | Some m => print (MsgSoundLoaded s) (with_mixer w1 m)
  | None => print (MsgSoundError s) w1
  end.

(** [pause(self)] *)
Definition pause (w : World) : World := print MsgPaused (with_paused true w).

(** [resume(self)] *)
Definition resume (w : World) : World := print MsgResumed (with_paused false w).

(** [stop(self)] *)
Definition stop (w : World) : World := RepeatTimer.stop w.

End BeepController.

(** ** The timer threads of the program

    The wait of thread [h] ends, and thread [h] calls the function it
    was created with, [RepeatTimer._run] with [BeepController.dong] as
    its [function].  [fire] is a whole, undisturbed run of thread [h]. *)
Definition wake (h : nat) (w : World) : World := Timer.wake h w.

Definition run (h : nat) (w : World) : World :=
  Timer.run (RepeatTimer._run BeepController.dong) h w.


(** ** main *)

(** [validate_sound(sound_path)] *)
Definition validate_sound (env : Env) (sound_path : string) : bool :=
  let sound_path :=
    if negb (os_path_isabs env sound_path)
    then os_path_join env (script_dir env) sound_path
    else sound_path in
  os_path_isfile env sound_path.

Definition exit_commands : list string :=
  ["exit"; "exit()"; "stop"; "stop()"; "quit"; "quit()"; "q"].

Definition is_exit_command (cmd : string) : bool :=
  existsb (String.eqb cmd) exit_commands.

(** One turn of the [while True] loop of [main] on the line [line] that
    [input] returns.  The boolean tells whether the loop goes on
    ([false] after [break]).  An exception caught by an [except] clause
    shows as the message that clause prints. *)
Definition main_loop_body (env : Env) (line : string) (w : World) : World * bool :=
  let cmd := Py.strip line in
  if Py.startswith cmd "-v " then
    match Py.split cmd !! 1%nat ≫= Py.int with
    | Some new_volume =>
        if (new_volume >? 100)%Z || (new_volume <? 0)%Z
        then (print MsgInvalidVolume w, true)
        else (save_config "volume" (Py.str new_volume)
                (BeepController.set_volume new_volume w), true)
    | None => (print MsgInvalidVolume w, true)
    end
  else if Py.startswith cmd "-d " then
    match Py.split cmd !! 1%nat ≫= Py.int with
    | Some new_delay =>
        (save_config "delay" (Py.str new_delay)
           (BeepController.set_delay new_delay w), true)
    | None => (print MsgInvalidDelay w, true)
    end
  else if Py.startswith cmd "-s " then
    match Py.split_space1 cmd !! 1%nat with
    | Some new_sound =>
        if negb (validate_sound env new_sound)
        then (print MsgInvalidSound w, true)
        else (save_config "sound" new_sound
                (BeepController.set_sound env new_sound w), true)
    | None => (print MsgInvalidSound w, true)
    end
  else if String.eqb cmd "pause" then (BeepController.pause w, true)
  else if String.eqb cmd "resume" then (BeepController.resume w, true)
  else if is_exit_command cmd then
    (print MsgExiting (BeepController.stop w), false)
  else (print MsgUsage w, true).

(** The loop over the lines typed, up to the [break]. *)
Fixpoint main_loop (env : Env) (lines : list string) (w : World) : World * bool :=
  match lines with
  | [] => (w, true)
  | line :: rest =>
      let '(w', go_on) := main_loop_body env line w in
      if go_on then main_loop env rest w' else (w', false)
  end.

(** ** Sequences of operations *)

(** What can happen to a controller: the calls of the command loop and
    the two steps of a timer thread. *)
Inductive Op :=
| OpSetVolume (v : Z)
| OpSetDelay (d : Z)
| OpSetSound (s : string)
| OpPause
| OpResume
| OpStop
| OpWake (h : nat)
| OpRun (h : nat).

Definition step (env : Env) (o : Op) (w : World) : World :=
  match o with
  | OpSetVolume v => BeepController.set_volume v w
  | OpSetDelay d => BeepController.set_delay d w
  | OpSetSound s => BeepController.set_sound env s w
  | OpPause => BeepController.pause w
  | OpResume => BeepController.resume w
  | OpStop => BeepController.stop w
  | OpWake h => wake h w
  | OpRun h => run h w
  end.

Definition steps (env : Env) (ops : list Op) (w : World) : World :=
  fold_left (fun w o => step env o w) ops w.




(** The number of fires that are scheduled or in flight. *)
Definition pending_count (w : World) : nat :=
  length (filter (fun t => pending t = true) (threads w)).

(** The number of playback calls so far. *)
Definition playbacks (w : World) : nat := length (played (mixer w)).

(** A small environment and a booted controller to compute with. *)
Definition demo_env : Env :=
  mkEnv (fun _ => false) (fun d p => d ++ "/" ++ p)
        (fun p => String.eqb p "/app/beep.wav" || String.eqb p "/app/ding.wav"
                  || String.eqb p "/app/notes.txt")
        "/app"
        (fun p => String.eqb p "beep.wav" || String.eqb p "ding.wav").

Definition demo_config : gmap string string :=
  <["sound" := "beep.wav"]> (<["delay" := "7"]> (<["volume" := "20"]> ∅)).

Definition booted (s : string) (d v : Z) : World :=
  default (mkWorld [] (mkBeepController s d v false (mkRepeatTimer d None false))
                   (mkMixer None 1%Q []) demo_config demo_config [])
          (BeepController.__init__ demo_env s d v demo_config).

Definition demo : World := booted "beep.wav" 7 20.

(** ** Predicates of the statements *)

(** The thread that [RepeatTimer.start] creates. *)
Definition fresh_timer (w : World) : PyTimer :=
  mkPyTimer (interval (timer (beeper w))) false Waiting.

(** Every pending thread is the one the [RepeatTimer] holds. *)
Definition owned (w : World) : Prop :=
  forall h t, threads w !! h = Some t -> pending t = true ->
              _timer (timer (beeper w)) = Some h.

(** No thread is pending. *)
Definition quiet (w : World) : Prop :=
  Forall (fun t => pending t = false) (threads w).

(** The operations that are steps of timer threads. *)
Definition timer_event (o : Op) : Prop :=
  match o with
  | OpWake _ | OpRun _ => True
  | _ => False
  end.


(** A gain in [[0, 1]]. *)
Definition gain_in_range (g : Q) : Prop := (0 <= g)%Q /\ (g <= 1)%Q.

(** An operation that sets no volume outside 0..100. *)
Definition valid_volume_op (o : Op) : Prop :=
  match o with
  | OpSetVolume v => 0 <= v <= 100
  | _ => True
  end.

(** Every playback so far was requested at a gain in [[0, 1]]. *)
Definition gains_in_range (w : World) : Prop :=
  Forall (fun p => gain_in_range (snd p)) (played (mixer w)).



(** The characters that can occur in a string [int] accepts: digits,
    the underscore, a sign, and white space around the literal. *)
Definition integer_char (c : ascii) : bool :=
  Py.isdigit c || Ascii.eqb c "_" || Ascii.eqb c "+" || Ascii.eqb c "-"
  || Py.isspace c.

(** ** The running program *)

(** What happens while the program runs: [input] returns a line, the
    wait of a timer thread ends, a committed thread calls its
    function.  The boolean of a state tells whether the loop of [main]
    is still running; a line typed after the [break] is read by
    nobody. *)
Inductive Event :=
| EvLine (line : string)
| EvWake (h : nat)
| EvRun (h : nat).

Definition program_step (env : Env) (e : Event) (st : World * bool) : World * bool :=
  match e with
  | EvLine line => if snd st then main_loop_body env line (fst st) else st
  | EvWake h => (wake h (fst st), snd st)
  | EvRun h => (run h (fst st), snd st)
  end.

Definition program (env : Env) (es : list Event) (w : World) : World * bool :=
  fold_left (fun st e => program_step env e st) es (w, true).




(** ** Start of the program *)

Inductive PyExn := TypeError | ValueError | InterpolationError.

(** How the start of [main] ends: the controller is built and the loop
    begins, [exit(1)] is called, or an exception nobody catches ends
    the process. *)
Inductive Startup :=
| Started (w : World)
| SysExit (status : Z)
| Uncaught (e : PyExn).

(** The [config["DEFAULT"]] that [load_config] writes when there is no
    [config.txt]. *)
Definition default_config : gmap string string :=
  <["sound" := "beep.wav"]> (<["delay" := "7"]> (<["volume" := "20"]> ∅)).

(** [load_config()]: [file] is the DEFAULT section of [config.txt] as
    [configparser] reads it, [None] when there is no such file.  The
    result is the configuration and the file as it is left. *)
Definition load_config (file : option (gmap string string))
  : gmap string string * gmap string string :=
  match file with
  | None => (default_config, default_config)
  | Some c => (c, c)
  end.

(** [config["DEFAULT"].get(k)]: Python's [None] for a missing key;
    the value of a key that is there goes through the interpolation of
    [configparser], [interpolate], which can raise. *)
Definition config_get (interpolate : string -> option string)
           (config : gmap string string) (k : string)
  : PyExn + option string :=
  match config !! k with
  | None => inr None
  | Some v =>
      match interpolate v with
      | Some v' => inr (Some v')
      | None => inl InterpolationError
      end
  end.

(** [int(x)] for [x] a string or [None]. *)
Definition int_of_get (x : option string) : PyExn + Z :=
  match x with
  | None => inl TypeError
  | Some s =>
      match Py.int s with
      | Some n => inr n
      | None => inl ValueError
      end
  end.

(** [init_app()], without what it prints: the delay, the volume, the
    sound and the configuration, or the exception raised on the way. *)
Definition init_app (interpolate : string -> option string)
           (file : option (gmap string string))
  : PyExn + (Z * Z * option string * gmap string string) :=
  let config := fst (load_config file) in
  match config_get interpolate config "sound" with
  | inl e => inl e
  | inr sound =>
      match config_get interpolate config "delay" with
      | inl e => inl e
      | inr x =>
          match int_of_get x with
          | inl e => inl e
          | inr delay =>
              match config_get interpolate config "volume" with
              | inl e => inl e
              | inr y =>
                  match int_of_get y with
                  | inl e => inl e
                  | inr volume => inr (delay, volume, sound, config)
                  end
              end
          end
      end
  end.

(** [main()] up to the loop.  [validate_sound(None)] raises
    [TypeError] in [os.path.isabs]. *)
Definition main_start (env : Env) (interpolate : string -> option string)
           (file : option (gmap string string)) : Startup :=
  match init_app interpolate file with
  | inl e => Uncaught e
  | inr (delay, volume, sound, config) =>
      match sound with
      | None => Uncaught TypeError
      | Some s =>
          if negb (validate_sound env s) then SysExit 1
          else match BeepController.__init__ env s delay volume config with
               | Some w => Started w
               | None => SysExit 1
               end
      end
  end.

(** An interpolation to compute with: a value with no percent sign is
    returned as it is. *)
Definition demo_interpolate (v : string) : option string :=
  if existsb (Ascii.eqb "%"%char) (list_ascii_of_string v) then None else Some v.

(** * Properties *)

(** ** Python strings *)

Example strip_ex : Py.strip "  -d  2.5 " = "-d  2.5".
Proof. reflexivity. Qed.
Example split_ex : Py.split "-d  2.5 x" = ["-d"; "2.5"; "x"].
Proof. reflexivity. Qed.
Example split1_ex : Py.split_space1 "-s my file.wav" = ["-s"; "my file.wav"].
Proof. reflexivity. Qed.
Example int_ex1 : Py.int "-5" = Some (-5).
Proof. reflexivity. Qed.
Example int_ex2 : Py.int "1_000" = Some 1000.
Proof. reflexivity. Qed.
Example int_ex3 : Py.int "2.5" = None.
Proof. reflexivity. Qed.
Example int_ex4 : Py.int "1__0" = None /\ Py.int "_1" = None /\ Py.int "1_" = None /\ Py.int "+" = None.
Proof. repeat split; reflexivity. Qed.
Example str_ex : Py.str (-5) = "-5" /\ Py.str 0 = "0" /\ Py.str 120 = "120".
Proof. repeat split; reflexivity. Qed.

(** ** Timer threads *)

Lemma pending_cancel (t : PyTimer) :
  pending (Timer.cancel t) = true -> pending t = true /\ in_flight t = true.
Proof.
  destruct t as [i f []]; unfold pending, scheduled, in_flight; simpl;
    intros H; try discriminate; auto.
Qed.

Lemma pending_scheduled_or_in_flight (t : PyTimer) :
  pending t = true <-> scheduled t = true \/ in_flight t = true.
Proof. unfold pending. apply orb_true_iff. Qed.


(** A list in which every pending thread sits at one index has at most
    one pending thread. *)
Lemma filter_none (l : list PyTimer) :
  (forall h t, l !! h = Some t -> pending t = false) ->
  filter (fun t => pending t = true) l = [].
Proof.
  induction l as [|a l IH]; intros H; [reflexivity|].
  rewrite filter_cons_False.
  - apply IH. intros h t Ht. apply (H (S h) t Ht).
  - rewrite (H 0%nat a eq_refl). discriminate.
Qed.



Lemma wait_ends_pending (t : PyTimer) :
  pending (Timer.wait_ends t) = pending t.
Proof. destruct t as [i [] []]; reflexivity. Qed.



Lemma finish_not_pending (t : PyTimer) : pending (Timer.finish t) = false.
Proof. reflexivity. Qed.

(** ** What a fire does *)

Lemma _run_threads (w : World) :
  threads (RepeatTimer._run BeepController.dong w)
  = (threads w ++ [fresh_timer w])%list.
Proof.
  unfold RepeatTimer._run, RepeatTimer.start, BeepController.dong.
  simpl. destruct (paused (beeper w)); reflexivity.
Qed.

Lemma _run_timer (w : World) :
  timer (beeper (RepeatTimer._run BeepController.dong w)) =
  mkRepeatTimer (interval (timer (beeper w))) (Some (length (threads w))) true.
Proof.
  unfold RepeatTimer._run, RepeatTimer.start, BeepController.dong.
  simpl. destruct (paused (beeper w)); reflexivity.
Qed.

Lemma _run_mixer (w : World) :
  mixer (RepeatTimer._run BeepController.dong w) = mixer (BeepController.dong w).
Proof.
  unfold RepeatTimer._run, RepeatTimer.start, BeepController.dong.
  simpl. destruct (paused (beeper w)); reflexivity.
Qed.

Lemma _run_settings (w : World) :
  sound (beeper (RepeatTimer._run BeepController.dong w)) = sound (beeper w)
  /\ delay (beeper (RepeatTimer._run BeepController.dong w)) = delay (beeper w)
  /\ volume (beeper (RepeatTimer._run BeepController.dong w)) = volume (beeper w)
  /\ paused (beeper (RepeatTimer._run BeepController.dong w)) = paused (beeper w).
Proof.
  unfold RepeatTimer._run, RepeatTimer.start, BeepController.dong.
  simpl. destruct (paused (beeper w)) eqn:E; simpl; rewrite ?E;
    repeat split; reflexivity.
Qed.



(** ** Every pending thread is the one the RepeatTimer holds *)

Lemma owned_stop (w : World) : owned w -> owned (RepeatTimer.stop w).
Proof.
  intros H h t. unfold RepeatTimer.stop.
  destruct (_timer (timer (beeper w))) as [k|] eqn:Hk; cbn; rewrite ?Hk.
  - rewrite list_lookup_alter. case_decide as Hd.
    + subst k. destruct (threads w !! h) as [t0|] eqn:Ht0; [|discriminate].
      cbn. intros [= <-] Hp. reflexivity.
    + intros Ht Hp. rewrite <- Hk. eapply H; eauto.
  - intros Ht Hp. specialize (H h t Ht Hp). congruence.
Qed.

Lemma owned_wake (w : World) (k : nat) : owned w -> owned (wake k w).
Proof.
  intros H h t. unfold wake, Timer.wake. cbn.
  rewrite list_lookup_alter. case_decide as Hd.
  - subst k. destruct (threads w !! h) as [t0|] eqn:Ht0; [|discriminate].
    cbn. intros [= <-] Hp. rewrite wait_ends_pending in Hp. eapply H; eauto.
  - intros Ht Hp. eapply H; eauto.
Qed.

Lemma owned_run (w : World) (k : nat) : owned w -> owned (run k w).
Proof.
  intros H h t. unfold run, Timer.run.
  destruct (threads w !! k) as [t0|] eqn:Ht0; [|apply H].
  destruct (in_flight t0) eqn:Hf; [|apply H].
  assert (Hown : _timer (timer (beeper w)) = Some k).
  { eapply H; eauto. apply pending_scheduled_or_in_flight. auto. }
  cbn [threads with_threads beeper].
  rewrite _run_threads, _run_timer. cbn [_timer].
  rewrite list_lookup_alter. case_decide as Hd.
  - subst k. destruct ((threads w ++ [fresh_timer w]) !! h)%list; [|discriminate].
    cbn. intros [= <-]. rewrite finish_not_pending. discriminate.
  - intros Ht Hp. apply lookup_app_Some in Ht as [Ht|[Hge Ht]].
    + specialize (H h t Ht Hp). congruence.
    + destruct (h - length (threads w))%nat as [|n] eqn:Hn; [|discriminate].
      f_equal. lia.
Qed.

Lemma owned_step (env : Env) (o : Op) (w : World) :
  owned w -> owned (step env o w).
Proof.
  destruct o; cbn [step]; intros H.
  - exact H.
  - exact H.
  - unfold BeepController.set_sound, Music.load. cbn.
    destruct (mixer_can_load env s); exact H.
  - exact H.
  - exact H.
  - apply owned_stop, H.
  - apply owned_wake, H.
  - apply owned_run, H.
Qed.

Lemma owned_steps (env : Env) (ops : list Op) (w : World) :
  owned w -> owned (steps env ops w).
Proof.
  unfold steps. revert w.
  induction ops as [|o ops IH]; intros w H; [exact H|].
  cbn. apply IH, owned_step, H.
Qed.

Lemma owned_init (env : Env) (s : string) (d v : Z) (cfg : gmap string string)
      (w : World) :
  BeepController.__init__ env s d v cfg = Some w -> owned w.
Proof.
  unfold BeepController.__init__, Music.load. cbn.
  destruct (mixer_can_load env s); [|discriminate].
  intros [= <-] h t. cbn. destruct h as [|h]; cbn; [reflexivity|discriminate].
Qed.

(** ** After a stop with no fire in flight, nothing is pending *)

Lemma quiet_pending_count (w : World) : quiet w -> pending_count w = 0%nat.
Proof.
  intros H. unfold pending_count. rewrite filter_none; [reflexivity|].
  intros h t Ht. exact (Forall_lookup_1 _ _ _ _ H Ht).
Qed.

Lemma stop_quiet (w : World) :
  owned w -> Forall (fun t => in_flight t = false) (threads w) ->
  quiet (BeepController.stop w).
Proof.
  intros Ho Hf. apply Forall_lookup_2. intros h t.
  unfold BeepController.stop, RepeatTimer.stop.
  destruct (_timer (timer (beeper w))) as [k|] eqn:Hk; cbn.
  - rewrite list_lookup_alter. case_decide as Hd.
    + subst k. destruct (threads w !! h) as [t0|] eqn:Ht0; [|discriminate].
      cbn. intros [= <-]. destruct (pending (Timer.cancel t0)) eqn:Hp; [|reflexivity].
      apply pending_cancel in Hp as [_ Hp].
      pose proof (Forall_lookup_1 _ _ _ _ Hf Ht0) as Hf'. cbn in Hf'. congruence.
    + intros Ht. destruct (pending t) eqn:Hp; [|reflexivity].
      specialize (Ho h t Ht Hp). congruence.
  - intros Ht. destruct (pending t) eqn:Hp; [|reflexivity].
    specialize (Ho h t Ht Hp). congruence.
Qed.

Lemma quiet_timer_event (env : Env) (o : Op) (w : World) :
  timer_event o -> quiet w ->
  quiet (step env o w) /\ mixer (step env o w) = mixer w
  /\ beeper (step env o w) = beeper w.
Proof.
  destruct o; cbn [timer_event step]; try contradiction; intros _ Hq.
  - unfold wake, Timer.wake, quiet. cbn. repeat split.
    apply Forall_alter; [exact Hq|].
    intros t _ Hp. rewrite wait_ends_pending. exact Hp.
  - unfold run, Timer.run.
    destruct (threads w !! h) as [t|] eqn:Ht; [|auto].
    destruct (in_flight t) eqn:Hf; [|auto].
    pose proof (Forall_lookup_1 _ _ _ _ Hq Ht) as Hq'. cbn in Hq'.
    unfold pending in Hq'. rewrite Hf, orb_true_r in Hq'. discriminate.
Qed.

Lemma quiet_timer_events (env : Env) (evs : list Op) (w : World) :
  Forall timer_event evs -> quiet w ->
  quiet (steps env evs w) /\ mixer (steps env evs w) = mixer w
  /\ beeper (steps env evs w) = beeper w.
Proof.
  unfold steps. revert w.
  induction evs as [|o evs IH]; intros w He Hq; [auto|].
  inversion He as [|? ? Ho He']; subst. cbn.
  destruct (quiet_timer_event env o w Ho Hq) as (Hq' & Hm & Hb).
  destruct (IH _ He' Hq') as (Hq'' & Hm' & Hb').
  repeat split; [exact Hq''|congruence|congruence].
Qed.

(** ** A RepeatTimer driven one operation at a time *)








(** * The claims *)

(** C1, as stated, fails: a fire that is in flight when [stop] is called
    (its thread has already seen [finished] unset) still calls
    [_run] after [stop] has returned.  [dong] looks at [paused] only, so
    the sound is played, and [_run] has scheduled one more fire and set
    [is_running] again. *)
Lemma C1_fire_racing_stop_plays :
  let w := BeepController.stop (wake 0 demo) in
  playbacks w = 0%nat
  /\ is_running (timer (beeper w)) = false
  /\ playbacks (run 0 w) = 1%nat
  /\ pending_count (run 0 w) = 1%nat
  /\ is_running (timer (beeper (run 0 w))) = true.
Proof. vm_compute. repeat split. Qed.

(** C1, amended: when no fire is in flight at the call, [stop] cancels
    the one fire that can be scheduled; whatever the timer threads do
    afterwards, no playback is added, no fire is scheduled or in flight,
    and the timer stays stopped. *)
Theorem C1_stop_cancels_scheduled_fire
        (env : Env) (s : string) (d v : Z) (cfg : gmap string string)
        (w0 : World) (ops evs : list Op) :
  BeepController.__init__ env s d v cfg = Some w0 ->
  Forall (fun t => in_flight t = false) (threads (steps env ops w0)) ->
  Forall timer_event evs ->
  played (mixer (steps env evs (BeepController.stop (steps env ops w0))))
    = played (mixer (steps env ops w0))
  /\ pending_count (steps env evs (BeepController.stop (steps env ops w0))) = 0%nat
  /\ is_running (timer (beeper (steps env evs (BeepController.stop (steps env ops w0)))))
     = false.
Proof.
  intros Hinit Hf He.
  pose proof (owned_steps env ops w0 (owned_init _ _ _ _ _ _ Hinit)) as Ho.
  pose proof (stop_quiet _ Ho Hf) as Hq.
  destruct (quiet_timer_events env evs _ He Hq) as (Hq' & Hm & Hb).
  rewrite Hm, Hb. split; [|split].
  - unfold BeepController.stop, RepeatTimer.stop.
    destruct (_timer (timer (beeper (steps env ops w0)))); reflexivity.
  - apply quiet_pending_count, Hq'.
  - unfold BeepController.stop, RepeatTimer.stop.
    destruct (_timer (timer (beeper (steps env ops w0)))); reflexivity.
Qed.

Lemma C1_stop_cancels_scheduled_fire_witness :
  let ops := [OpSetVolume 50; OpWake 0; OpRun 0; OpPause] in
  let evs := [OpWake 1; OpRun 1; OpWake 0; OpRun 0] in
  played (mixer (steps demo_env evs (BeepController.stop (steps demo_env ops demo))))
    = played (mixer (steps demo_env ops demo))
  /\ pending_count (steps demo_env evs (BeepController.stop (steps demo_env ops demo))) = 0%nat
  /\ is_running (timer (beeper (steps demo_env evs (BeepController.stop (steps demo_env ops demo)))))
     = false.
Proof.
  intros ops evs.
  apply (C1_stop_cancels_scheduled_fire demo_env "beep.wav" 7 20 demo_config demo ops evs).
  - reflexivity.
  - vm_compute. repeat constructor.
  - repeat constructor.
Defined.

(** C6: [RepeatTimer.start] on a timer that is running changes nothing:
    the interval, the running flag, the thread it holds and the list of
    threads are the ones before the call. *)
Theorem C6_start_when_running_is_noop (w : World) :
  is_running (timer (beeper w)) = true -> RepeatTimer.start w = w.
Proof. intros H. unfold RepeatTimer.start. rewrite H. reflexivity. Qed.

Lemma C6_start_when_running_is_noop_witness :
  is_running (timer (beeper demo)) = true /\ RepeatTimer.start demo = demo.
Proof.
  split; [reflexivity|].
  apply (C6_start_when_running_is_noop demo). reflexivity.
Defined.



(** ** Volume and gain *)

Lemma gain_in_range_iff (v : Z) :
  gain_in_range (BeepController.gain v) <-> 0 <= v <= 100.
Proof.
  unfold gain_in_range, BeepController.gain, Qle. simpl. lia.
Qed.

(** What [dong] does to the mixer. *)
Lemma dong_played (w : World) :
  played (mixer (BeepController.dong w)) =
  if paused (beeper w) then played (mixer w)
  else match music (mixer w) with
       | Some s => (s, BeepController.gain (volume (beeper w))) :: played (mixer w)
       | None => played (mixer w)
       end.
Proof.
  unfold BeepController.dong, Music.play, Music.set_volume.
  destruct (paused (beeper w)); cbn; [reflexivity|].
  destruct (music (mixer w)); reflexivity.
Qed.



Lemma run_played (w : World) (h : nat) :
  played (mixer (run h w)) = played (mixer w)
  \/ played (mixer (run h w)) = played (mixer (BeepController.dong w)).
Proof.
  unfold run, Timer.run.
  destruct (threads w !! h) as [t|]; [|auto].
  destruct (in_flight t); [|auto].
  cbn [mixer with_threads]. rewrite _run_mixer. auto.
Qed.

Lemma run_volume (w : World) (h : nat) :
  volume (beeper (run h w)) = volume (beeper w).
Proof.
  unfold run, Timer.run.
  destruct (threads w !! h) as [t|]; [|auto].
  destruct (in_flight t); [|auto].
  cbn [beeper with_threads]. apply _run_settings.
Qed.

Lemma gains_step (env : Env) (o : Op) (w : World) :
  valid_volume_op o ->
  0 <= volume (beeper w) <= 100 -> gains_in_range w ->
  0 <= volume (beeper (step env o w)) <= 100 /\ gains_in_range (step env o w).
Proof.
  unfold gains_in_range.
  destruct o; cbn [valid_volume_op step]; intros Ho Hv Hg; try (split; assumption).
  - unfold BeepController.set_sound, Music.load. cbn.
    destruct (mixer_can_load env s); cbn; auto.
  - unfold BeepController.stop, RepeatTimer.stop.
    destruct (_timer (timer (beeper w))); cbn; auto.
  - rewrite run_volume. split; [exact Hv|].
    destruct (run_played w h) as [-> | ->]; [exact Hg|].
    rewrite dong_played. destruct (paused (beeper w)); [exact Hg|].
    destruct (music (mixer w)); [|exact Hg].
    constructor; [|exact Hg]. cbn. apply gain_in_range_iff, Hv.
Qed.







(** ** Pause and resume *)






(** C2 fails on the code: [set_sound] assigns [self.sound] before it
    tries to load, so when the load raises the controller names the
    path that failed.  The mixer keeps the music it had, the rest of
    the controller and the threads are untouched, and the error is
    printed.  Through the command loop the path that failed is also
    written to the configuration. *)
Theorem C2_set_sound_failure_keeps_new_path (env : Env) (s : string) (w : World) :
  (mixer_can_load env s = false ->
   BeepController.set_sound env s w
     = print (MsgSoundError s) (BeepController.with_sound s w)
   /\ sound (beeper (BeepController.set_sound env s w)) = s
   /\ mixer (BeepController.set_sound env s w) = mixer w)
  /\ (let w' := fst (main_loop_body demo_env "-s notes.txt" demo) in
      sound (beeper demo) = "beep.wav"
      /\ sound (beeper w') = "notes.txt"
      /\ music (mixer w') = Some "beep.wav"
      /\ config_file w' !! "sound" = Some "notes.txt"
      /\ stdout w' = [MsgSoundError "notes.txt"]).
Proof.
  split.
  - intros H. unfold BeepController.set_sound, Music.load. rewrite H.
    repeat split.
  - vm_compute. repeat split.
Qed.

Lemma C2_set_sound_failure_keeps_new_path_witness :
  sound (beeper demo) = "beep.wav"
  /\ sound (beeper (BeepController.set_sound demo_env "notes.txt" demo)) = "notes.txt"
  /\ music (mixer (BeepController.set_sound demo_env "notes.txt" demo)) = Some "beep.wav".
Proof.
  destruct (C2_set_sound_failure_keeps_new_path demo_env "notes.txt" demo)
    as ((_ & H2 & H3) & _); [reflexivity|].
  split; [reflexivity|]. split; [exact H2|]. rewrite H3. reflexivity.
Defined.

(** ** The command loop *)

(** C3 fails on the code: the [-d] branch has no range check (the [-v]
    branch has one), so [-d 0] and [-d -5] reach [set_delay]: the delay,
    the timer interval and the configuration take the value, and no
    error is printed. *)
Theorem C3_nonpositive_delay_is_accepted :
  (forall env w,
      main_loop_body env "-d 0" w
      = (save_config "delay" "0" (BeepController.set_delay 0 w), true))
  /\ (forall env w,
      main_loop_body env "-d -5" w
      = (save_config "delay" "-5" (BeepController.set_delay (-5) w), true))
  /\ (let w' := fst (main_loop_body demo_env "-d -5" demo) in
      delay (beeper w') = -5
      /\ interval (timer (beeper w')) = -5
      /\ config w' !! "delay" = Some "-5"
      /\ config_file w' !! "delay" = Some "-5"
      /\ stdout w' = [MsgInfo 20 (-5)])
  /\ (forall env w,
      main_loop_body env "-v -5" w = (print MsgInvalidVolume w, true)).
Proof.
  split; [|split; [|split]].
  - intros env w. reflexivity.
  - intros env w. reflexivity.
  - vm_compute. repeat split.
  - intros env w. reflexivity.
Qed.

(** C8, as stated, fails for the parenthesized variant of [q]: the line
    [q()] is not one of the exit commands; it prints the usage, stops
    nothing and the loop goes on. *)
Lemma C8_q_parenthesized_is_not_an_exit_command :
  main_loop_body demo_env "q()" demo = (print MsgUsage demo, true)
  /\ main_loop demo_env ["q()"; "-v 30"] demo
     = main_loop demo_env ["-v 30"] (print MsgUsage demo)
  /\ pending_count (fst (main_loop_body demo_env "q()" demo)) = 1%nat.
Proof. vm_compute. repeat split. Qed.

Lemma is_exit_command_false (cmd : string) :
  ~ In cmd exit_commands -> is_exit_command cmd = false.
Proof.
  intros H. unfold is_exit_command.
  destruct (existsb (String.eqb cmd) exit_commands) eqn:E; [|reflexivity].
  apply existsb_exists in E as (x & Hx & Heq).
  apply String.eqb_eq in Heq. subst x. contradiction.
Qed.

(** C8, amended: the exit commands are [exit], [exit()], [stop],
    [stop()], [quit], [quit()] and [q].  On each of them (white space
    around it aside) the loop calls [BeepController.stop], prints the
    exit message and ends, whatever lines follow.  A line that is none
    of the commands prints the usage and changes nothing else. *)
Theorem C8_exit_commands_stop_and_end (env : Env) (line : string) (w : World) :
  (In (Py.strip line) ["exit"; "exit()"; "stop"; "stop()"; "quit"; "quit()"; "q"] ->
   main_loop_body env line w = (print MsgExiting (BeepController.stop w), false)
   /\ forall rest,
       main_loop env (line :: rest) w = (print MsgExiting (BeepController.stop w), false))
  /\ (Py.startswith (Py.strip line) "-v " = false ->
      Py.startswith (Py.strip line) "-d " = false ->
      Py.startswith (Py.strip line) "-s " = false ->
      Py.strip line <> "pause" -> Py.strip line <> "resume" ->
      ~ In (Py.strip line) exit_commands ->
      main_loop_body env line w = (print MsgUsage w, true)).
Proof.
  split.
  - intros H.
    assert (E : main_loop_body env line w
                = (print MsgExiting (BeepController.stop w), false)).
    { unfold main_loop_body.
      cbn [In] in H.
      destruct H as [H|[H|[H|[H|[H|[H|[H|[]]]]]]]]; rewrite <- H; reflexivity. }
    split; [exact E|]. intros rest. cbn [main_loop]. rewrite E. reflexivity.
  - intros Hv Hd Hs Hp Hr He. unfold main_loop_body.
    rewrite Hv, Hd, Hs.
    apply String.eqb_neq in Hp, Hr. rewrite Hp, Hr.
    rewrite (is_exit_command_false _ He). reflexivity.
Qed.

Lemma C8_exit_commands_stop_and_end_witness :
  main_loop_body demo_env "  quit() " demo
    = (print MsgExiting (BeepController.stop demo), false)
  /\ main_loop demo_env ["q"; "-v 30"] demo
    = (print MsgExiting (BeepController.stop demo), false)
  /\ main_loop_body demo_env "-v" demo = (print MsgUsage demo, true)
  /\ main_loop_body demo_env "help" demo = (print MsgUsage demo, true).
Proof.
  split; [|split; [|split]].
  - apply (C8_exit_commands_stop_and_end demo_env "  quit() " demo).
    cbn. tauto.
  - apply (C8_exit_commands_stop_and_end demo_env "q" demo).
    cbn. tauto.
  - apply (C8_exit_commands_stop_and_end demo_env "-v" demo);
      try reflexivity; try discriminate.
    cbn. intros H. repeat (destruct H as [H|H]; [discriminate H|]). exact H.
  - apply (C8_exit_commands_stop_and_end demo_env "help" demo);
      try reflexivity; try discriminate.
    cbn. intros H. repeat (destruct H as [H|H]; [discriminate H|]). exact H.
Defined.

(** ** Integer literals *)

Lemma int_digits_rejects (c : ascii) (s : string) (acc : Z) (b : bool) :
  In c (list_ascii_of_string s) ->
  Py.isdigit c = false -> Ascii.eqb c "_" = false ->
  Py.int_digits acc b s = None.
Proof.
  intros Hin Hd Hu. revert acc b.
  induction s as [|a s IH]; intros acc b; cbn in Hin; [contradiction|].
  cbn [Py.int_digits]. destruct Hin as [->|Hin].
  - rewrite Hd, Hu. reflexivity.
  - destruct (Py.isdigit a); [apply IH, Hin|].
    destruct (Ascii.eqb a "_"); [|reflexivity].
    destruct b; [apply IH, Hin|reflexivity].
Qed.

Lemma lstrip_In (c : ascii) (s : string) :
  In c (list_ascii_of_string s) -> Py.isspace c = false ->
  In c (list_ascii_of_string (Py.lstrip s)).
Proof.
  intros Hin Hs. induction s as [|a s IH]; [exact Hin|].
  cbn [Py.lstrip]. destruct (Py.isspace a) eqn:Ha; [|exact Hin].
  cbn in Hin. destruct Hin as [->|Hin]; [congruence|]. apply IH, Hin.
Qed.

Lemma rstrip_In (c : ascii) (s : string) :
  In c (list_ascii_of_string s) -> Py.isspace c = false ->
  In c (list_ascii_of_string (Py.rstrip s)).
Proof.
  intros Hin Hs. induction s as [|a s IH]; [exact Hin|].
  cbn [Py.rstrip]. cbn in Hin. destruct Hin as [->|Hin].
  - destruct (Py.rstrip s); [rewrite Hs|]; cbn; auto.
  - specialize (IH Hin). destruct (Py.rstrip s); [contradiction|].
    cbn [list_ascii_of_string]. right. exact IH.
Qed.

Lemma int_rejects (c : ascii) (s : string) :
  In c (list_ascii_of_string s) -> integer_char c = false ->
  Py.int s = None.
Proof.
  intros Hin Hc. unfold integer_char in Hc.
  apply orb_false_iff in Hc as [Hc Hspace].
  apply orb_false_iff in Hc as [Hc Hminus].
  apply orb_false_iff in Hc as [Hc Hplus].
  apply orb_false_iff in Hc as [Hdigit Hunder].
  assert (Hin' : In c (list_ascii_of_string (Py.strip s))).
  { unfold Py.strip. apply rstrip_In; [|assumption].
    apply lstrip_In; assumption. }
  unfold Py.int. destruct (Py.strip s) as [|a r]; [reflexivity|].
  cbn in Hin'.
  destruct (Ascii.eqb a "+") eqn:Ea.
  - apply Ascii.eqb_eq in Ea. subst a.
    destruct Hin' as [<-|Hin']; [discriminate|].
    apply (int_digits_rejects c); assumption.
  - destruct (Ascii.eqb a "-") eqn:Eb.
    + apply Ascii.eqb_eq in Eb. subst a.
      destruct Hin' as [<-|Hin']; [discriminate|].
      rewrite (int_digits_rejects c) by assumption. reflexivity.
    + apply (int_digits_rejects c); [|assumption|assumption].
      cbn. exact Hin'.
Qed.

Lemma startswith_d_not_v (cmd : string) :
  Py.startswith cmd "-d " = true -> Py.startswith cmd "-v " = false.
Proof.
  unfold Py.startswith.
  destruct cmd as [|a cmd]; [cbn; discriminate|].
  cbn [String.prefix].
  destruct (ascii_dec "-" a) as [<-|]; [|reflexivity].
  destruct cmd as [|b cmd]; [cbn; discriminate|].
  cbn [String.prefix].
  destruct (ascii_dec "d" b) as [<-|]; [|discriminate].
  intros _. reflexivity.
Qed.

(** C10: a [-d] command whose argument contains a character that no
    integer literal has (the point of [2.5], the [e] of [1e3], a
    letter) is rejected: the error is printed, the loop goes on, and the
    delay, the timer interval and the configuration, in memory and on
    disk, are what they were. *)
Theorem C10_delay_argument_must_be_integer
        (env : Env) (line tok : string) (w : World) :
  Py.startswith (Py.strip line) "-d " = true ->
  Py.split (Py.strip line) !! 1%nat = Some tok ->
  (exists c, In c (list_ascii_of_string tok) /\ integer_char c = false) ->
  main_loop_body env line w = (print MsgInvalidDelay w, true)
  /\ delay (beeper (fst (main_loop_body env line w))) = delay (beeper w)
  /\ interval (timer (beeper (fst (main_loop_body env line w))))
     = interval (timer (beeper w))
  /\ config (fst (main_loop_body env line w)) = config w
  /\ config_file (fst (main_loop_body env line w)) = config_file w.
Proof.
  intros Hd Htok (c & Hin & Hc).
  assert (E : main_loop_body env line w = (print MsgInvalidDelay w, true)).
  { unfold main_loop_body.
    rewrite (startswith_d_not_v _ Hd), Hd, Htok. cbn [mbind option_bind].
    rewrite (int_rejects c tok Hin Hc). reflexivity. }
  rewrite E. repeat split.
Qed.

Lemma C10_delay_argument_must_be_integer_witness :
  main_loop_body demo_env "-d 2.5" demo = (print MsgInvalidDelay demo, true)
  /\ main_loop_body demo_env " -d  1e3 x" demo = (print MsgInvalidDelay demo, true).
Proof.
  split.
  - apply (C10_delay_argument_must_be_integer demo_env "-d 2.5" "2.5" demo);
      [reflexivity|reflexivity|].
    exists "."%char. split; [cbn; tauto|reflexivity].
  - apply (C10_delay_argument_must_be_integer demo_env " -d  1e3 x" "1e3" demo);
      [reflexivity|reflexivity|].
    exists "e"%char. split; [cbn; tauto|reflexivity].
Defined.


(** * Further properties *)

(** ** [int] and [str] *)









(** A string that neither starts nor ends with white space is left as
    it is by [strip]. *)
Lemma lstrip_first (c : ascii) (s : string) :
  Py.isspace c = false -> Py.lstrip (String c s) = String c s.
Proof. intros H. cbn [Py.lstrip]. rewrite H. reflexivity. Qed.












(** ** Command lines written with [str] *)










(** X3: a [-v] command whose argument holds a character that no integer
    literal has is rejected: the error is printed and the volume, the
    mixer and the configuration are what they were. *)
Theorem X3_volume_argument_must_be_integer
        (env : Env) (line tok : string) (w : World) :
  Py.startswith (Py.strip line) "-v " = true ->
  Py.split (Py.strip line) !! 1%nat = Some tok ->
  (exists c, In c (list_ascii_of_string tok) /\ integer_char c = false) ->
  main_loop_body env line w = (print MsgInvalidVolume w, true).
Proof.
  intros Hv Htok (c & Hin & Hc). unfold main_loop_body.
  rewrite Hv, Htok. cbn [mbind option_bind].
  rewrite (int_rejects c tok Hin Hc). reflexivity.
Qed.

Lemma X3_volume_argument_must_be_integer_witness :
  main_loop_body demo_env "-v 50%" demo = (print MsgInvalidVolume demo, true)
  /\ main_loop_body demo_env "-v 0.5" demo = (print MsgInvalidVolume demo, true).
Proof.
  split.
  - apply (X3_volume_argument_must_be_integer demo_env "-v 50%" "50%" demo);
      [reflexivity|reflexivity|].
    exists "%"%char. split; [cbn; tauto|reflexivity].
  - apply (X3_volume_argument_must_be_integer demo_env "-v 0.5" "0.5" demo);
      [reflexivity|reflexivity|].
    exists "."%char. split; [cbn; tauto|reflexivity].
Defined.


(** ** The delay and the fire already scheduled *)



(** ** The sound command *)



(** ** What a command leaves alone *)

Lemma stop_played (w : World) :
  played (mixer (BeepController.stop w)) = played (mixer w).
Proof.
  unfold BeepController.stop, RepeatTimer.stop.
  destruct (_timer (timer (beeper w))); reflexivity.
Qed.

(** One command: it plays nothing; when the loop goes on after it, the
    threads, the thread the timer holds and its running flag are as
    they were; and the loop ends only by calling
    [BeepController.stop]. *)
Lemma main_loop_body_frame (env : Env) (line : string) (w : World) :
  played (mixer (fst (main_loop_body env line w))) = played (mixer w)
  /\ (snd (main_loop_body env line w) = true ->
      threads (fst (main_loop_body env line w)) = threads w
      /\ _timer (timer (beeper (fst (main_loop_body env line w))))
         = _timer (timer (beeper w))
      /\ is_running (timer (beeper (fst (main_loop_body env line w))))
         = is_running (timer (beeper w)))
  /\ (snd (main_loop_body env line w) = false ->
      fst (main_loop_body env line w) = print MsgExiting (BeepController.stop w)).
Proof.
  unfold main_loop_body.
  destruct (Py.startswith (Py.strip line) "-v ").
  { destruct (Py.split (Py.strip line) !! 1%nat ≫= Py.int) as [n|];
      [destruct ((n >? 100)%Z || (n <? 0)%Z)|]; cbn; repeat split; discriminate. }
  destruct (Py.startswith (Py.strip line) "-d ").
  { destruct (Py.split (Py.strip line) !! 1%nat ≫= Py.int) as [n|];
      cbn; repeat split; discriminate. }
  destruct (Py.startswith (Py.strip line) "-s ").
  { destruct (Py.split_space1 (Py.strip line) !! 1%nat) as [p|];
      [destruct (negb (validate_sound env p))|];
      unfold BeepController.set_sound, Music.load;
      try destruct (mixer_can_load env p); cbn; repeat split; discriminate. }
  destruct (Py.strip line =? "pause")%string; [cbn; repeat split; discriminate|].
  destruct (Py.strip line =? "resume")%string; [cbn; repeat split; discriminate|].
  destruct (is_exit_command (Py.strip line)); cbn [fst snd].
  - split; [apply stop_played|]. split; [discriminate|reflexivity].
  - cbn. repeat split; discriminate.
Qed.

Lemma stop_frame (w w' : World) :
  threads w' = threads w ->
  _timer (timer (beeper w')) = _timer (timer (beeper w)) ->
  threads (BeepController.stop w') = threads (BeepController.stop w).
Proof.
  intros Et Eh. unfold BeepController.stop, RepeatTimer.stop. rewrite Eh.
  destruct (_timer (timer (beeper w))); cbn; rewrite Et; reflexivity.
Qed.

(** X7: however many commands are typed, none of them plays anything;
    as long as the loop goes on, the threads, the thread the timer
    holds and its running flag are what they were before the first
    command; and when the loop has ended the threads are those that
    [stop] leaves and the timer is not running. *)
Theorem X7_commands_leave_the_timer_alone (env : Env) (lines : list string) (w : World) :
  played (mixer (fst (main_loop env lines w))) = played (mixer w)
  /\ (snd (main_loop env lines w) = true ->
      threads (fst (main_loop env lines w)) = threads w
      /\ _timer (timer (beeper (fst (main_loop env lines w))))
         = _timer (timer (beeper w))
      /\ is_running (timer (beeper (fst (main_loop env lines w))))
         = is_running (timer (beeper w)))
  /\ (snd (main_loop env lines w) = false ->
      threads (fst (main_loop env lines w)) = threads (BeepController.stop w)
      /\ is_running (timer (beeper (fst (main_loop env lines w)))) = false).
Proof.
  revert w. induction lines as [|line lines IH]; intros w.
  - cbn. repeat split; discriminate.
  - cbn [main_loop].
    destruct (main_loop_body_frame env line w) as (Hp & Hon & Hoff).
    destruct (main_loop_body env line w) as [w1 go] eqn:E. cbn [fst snd] in *.
    destruct go.
    + destruct (Hon eq_refl) as (E1 & E2 & E3).
      destruct (IH w1) as (Ip & Ion & Ioff).
      rewrite Ip, Hp. split; [reflexivity|]. split.
      * intros H. destruct (Ion H) as (J1 & J2 & J3).
        rewrite J1, J2, J3. auto.
      * intros H. destruct (Ioff H) as (J1 & J2).
        rewrite J1, J2. split; [|reflexivity].
        apply stop_frame; assumption.
    + cbn [fst snd]. split; [exact Hp|]. split; [discriminate|].
      intros _. rewrite (Hoff eq_refl). split; [reflexivity|].
      unfold BeepController.stop, RepeatTimer.stop.
      destruct (_timer (timer (beeper w))); reflexivity.
Qed.

Lemma X7_commands_leave_the_timer_alone_witness :
  threads (fst (main_loop demo_env ["-d 3"; "pause"; "-v 5"; "what"] demo))
  = threads demo
  /\ is_running (timer (beeper (fst (main_loop demo_env ["-d 3"; "quit"; "-v 5"] demo))))
     = false.
Proof.
  destruct (X7_commands_leave_the_timer_alone demo_env
              ["-d 3"; "pause"; "-v 5"; "what"] demo) as (_ & H1 & _).
  destruct (X7_commands_leave_the_timer_alone demo_env
              ["-d 3"; "quit"; "-v 5"] demo) as (_ & _ & H2).
  split; [apply H1; reflexivity|apply H2; reflexivity].
Defined.

(** ** The program as a whole *)











(** ** The volume in the running program *)

Lemma main_loop_body_volume (env : Env) (line : string) (w : World) :
  0 <= volume (beeper w) <= 100 ->
  0 <= volume (beeper (fst (main_loop_body env line w))) <= 100.
Proof.
  intros Hv. unfold main_loop_body.
  destruct (Py.startswith (Py.strip line) "-v ").
  { destruct (Py.split (Py.strip line) !! 1%nat ≫= Py.int) as [n|]; [|exact Hv].
    destruct (Z.gtb_spec n 100); [exact Hv|].
    destruct (Z.ltb_spec n 0); [exact Hv|]. cbn. lia. }
  destruct (Py.startswith (Py.strip line) "-d ").
  { destruct (Py.split (Py.strip line) !! 1%nat ≫= Py.int) as [n|]; exact Hv. }
  destruct (Py.startswith (Py.strip line) "-s ").
  { destruct (Py.split_space1 (Py.strip line) !! 1%nat) as [p|]; [|exact Hv].
    destruct (negb (validate_sound env p)); [exact Hv|].
    unfold BeepController.set_sound, Music.load.
    destruct (mixer_can_load env p); exact Hv. }
  destruct (Py.strip line =? "pause")%string; [exact Hv|].
  destruct (Py.strip line =? "resume")%string; [exact Hv|].
  destruct (is_exit_command (Py.strip line)); [|exact Hv].
  cbn. unfold BeepController.stop, RepeatTimer.stop.
  destruct (_timer (timer (beeper w))); exact Hv.
Qed.

Lemma program_step_volume (env : Env) (e : Event) (st : World * bool) :
  0 <= volume (beeper (fst st)) <= 100 -> gains_in_range (fst st) ->
  0 <= volume (beeper (fst (program_step env e st))) <= 100
  /\ gains_in_range (fst (program_step env e st)).
Proof.
  intros Hv Hg. destruct e as [line|h|h]; cbn [program_step fst snd].
  - destruct (snd st); [|auto]. split; [apply main_loop_body_volume, Hv|].
    unfold gains_in_range.
    destruct (main_loop_body_frame env line (fst st)) as (-> & _).
    exact Hg.
  - apply (gains_step env (OpWake h) (fst st) I Hv Hg).
  - apply (gains_step env (OpRun h) (fst st) I Hv Hg).
Qed.

(** X9: when the controller is built with a volume in 0..100, the
    volume stays in 0..100 and every playback is requested at a gain in
    [[0, 1]], whatever lines are typed and however the timer threads
    run: the loop lets no other volume through to [set_volume]. *)
Theorem X9_program_keeps_volume_in_range
        (env : Env) (s : string) (d v : Z) (cfg : gmap string string)
        (w0 : World) (es : list Event) :
  BeepController.__init__ env s d v cfg = Some w0 ->
  0 <= v <= 100 ->
  0 <= volume (beeper (fst (program env es w0))) <= 100
  /\ gains_in_range (fst (program env es w0)).
Proof.
  intros Hinit Hv. unfold program.
  assert (H0 : 0 <= volume (beeper (fst (w0, true))) <= 100
               /\ gains_in_range (fst (w0, true))).
  { revert Hinit. unfold BeepController.__init__, Music.load. cbn.
    destruct (mixer_can_load env s); [|discriminate].
    intros [= <-]. split; [exact Hv|constructor]. }
  revert H0. generalize (w0, true). clear Hinit.
  induction es as [|e es IH]; intros st [H1 H2]; [auto|].
  cbn [fold_left]. apply IH. apply program_step_volume; assumption.
Qed.

Lemma X9_program_keeps_volume_in_range_witness :
  let es := [EvLine "-v 100"; EvWake 0; EvRun 0; EvLine "-v 101"; EvLine "-v -3";
             EvWake 1; EvRun 1; EvLine "-v 0"; EvWake 2; EvRun 2] in
  volume (beeper (fst (program demo_env es demo))) = 0
  /\ length (played (mixer (fst (program demo_env es demo)))) = 3%nat
  /\ gains_in_range (fst (program demo_env es demo)).
Proof.
  intros es. split; [reflexivity|]. split; [reflexivity|].
  apply (X9_program_keeps_volume_in_range demo_env "beep.wav" 7 20 demo_config
           demo es); [reflexivity|lia].
Defined.

(** ** Stopping and restarting a RepeatTimer *)

Lemma cancel_cancel (t : PyTimer) : Timer.cancel (Timer.cancel t) = Timer.cancel t.
Proof. reflexivity. Qed.



(** X10: [RepeatTimer.stop] can be called again at no cost: a second
    call right after the first changes nothing. *)
Theorem X10_stop_twice_is_stop_once (w : World) :
  RepeatTimer.stop (RepeatTimer.stop w) = RepeatTimer.stop w.
Proof.
  unfold RepeatTimer.stop.
  destruct (_timer (timer (beeper w))) as [h|] eqn:Hh; cbn; rewrite ?Hh; cbn.
  - rewrite list_alter_alter_eq.
    rewrite (list_alter_ext (Timer.cancel ∘ Timer.cancel) Timer.cancel
               (threads w) (threads w) h); [reflexivity| |reflexivity].
    intros t _. apply cancel_cancel.
  - reflexivity.
Qed.



(** ** The start of the program *)





(** X13: how the start fails.  A configuration without a [delay] or a
    [volume] key ends the process with an uncaught [TypeError], one
    whose delay or volume is not an integer literal with an uncaught
    [ValueError], one without a [sound] key with an uncaught
    [TypeError] once delay and volume are read; a sound file that is
    not found, or that the mixer cannot load, ends it with [exit(1)].
    In none of these cases is a timer started. *)
Theorem X13_start_failures
        (env : Env) (interpolate : string -> option string)
        (file : option (gmap string string)) (s : option string) :
  config_get interpolate (fst (load_config file)) "sound" = inr s ->
  (fst (load_config file) !! "delay" = None ->
   main_start env interpolate file = Uncaught TypeError)
  /\ (forall ds, config_get interpolate (fst (load_config file)) "delay" = inr (Some ds) ->
      Py.int ds = None ->
      main_start env interpolate file = Uncaught ValueError)
  /\ (forall ds d, config_get interpolate (fst (load_config file)) "delay" = inr (Some ds) ->
      Py.int ds = Some d ->
      (fst (load_config file) !! "volume" = None ->
       main_start env interpolate file = Uncaught TypeError)
      /\ (forall vs, config_get interpolate (fst (load_config file)) "volume" = inr (Some vs) ->
          Py.int vs = None ->
          main_start env interpolate file = Uncaught ValueError)
      /\ (forall vs v, config_get interpolate (fst (load_config file)) "volume" = inr (Some vs) ->
          Py.int vs = Some v ->
          match s with
          | None => main_start env interpolate file = Uncaught TypeError
          | Some p =>
              (validate_sound env p = false ->
               main_start env interpolate file = SysExit 1)
              /\ (mixer_can_load env p = false ->
                  main_start env interpolate file = SysExit 1)
          end)).
Proof.
  intros Hs. unfold main_start, init_app, int_of_get. rewrite Hs.
  split; [|split].
  - intros Hd. unfold config_get at 1. rewrite Hd. reflexivity.
  - intros ds Hd Hdi. rewrite Hd, Hdi. reflexivity.
  - intros ds d Hd Hdi. rewrite Hd, Hdi. split; [|split].
    + intros Hv. unfold config_get at 1. rewrite Hv. reflexivity.
    + intros vs Hv Hvi. rewrite Hv, Hvi. reflexivity.
    + intros vs v Hv Hvi. rewrite Hv, Hvi. destruct s as [p|]; [|reflexivity].
      split.
      * intros ->. reflexivity.
      * intros Hload. destruct (validate_sound env p); [|reflexivity].
        cbn [negb]. unfold BeepController.__init__, Music.load. cbn.
        rewrite Hload. reflexivity.
Qed.

Lemma X13_start_failures_witness :
  main_start demo_env demo_interpolate (Some (<["sound" := "beep.wav"]> ∅))
  = Uncaught TypeError
  /\ main_start demo_env demo_interpolate
       (Some (<["sound" := "beep.wav"]> (<["delay" := "2.5"]> ∅)))
     = Uncaught ValueError
  /\ main_start demo_env demo_interpolate
       (Some (<["sound" := "notes.txt"]> (<["delay" := "7"]> (<["volume" := "20"]> ∅))))
     = SysExit 1
  /\ main_start demo_env demo_interpolate
       (Some (<["sound" := "gone.wav"]> (<["delay" := "7"]> (<["volume" := "20"]> ∅))))
     = SysExit 1.
Proof.
  split; [|split; [|split]].
  - apply (X13_start_failures demo_env demo_interpolate
             (Some (<["sound" := "beep.wav"]> ∅)) (Some "beep.wav"));
      reflexivity.
  - destruct (X13_start_failures demo_env demo_interpolate
             (Some (<["sound" := "beep.wav"]> (<["delay" := "2.5"]> ∅)))
             (Some "beep.wav")) as (_ & H & _); [reflexivity|].
    apply (H "2.5"); reflexivity.
  - destruct (X13_start_failures demo_env demo_interpolate
             (Some (<["sound" := "notes.txt"]> (<["delay" := "7"]> (<["volume" := "20"]> ∅))))
             (Some "notes.txt")) as (_ & _ & H); [reflexivity|].
    destruct (H "7" 7) as (_ & _ & H'); [reflexivity|reflexivity|].
    destruct (H' "20" 20) as (_ & H''); [reflexivity|reflexivity|].
    apply H''. reflexivity.
  - destruct (X13_start_failures demo_env demo_interpolate
             (Some (<["sound" := "gone.wav"]> (<["delay" := "7"]> (<["volume" := "20"]> ∅))))
             (Some "gone.wav")) as (_ & _ & H); [reflexivity|].
    destruct (H "7" 7) as (_ & _ & H'); [reflexivity|reflexivity|].
    destruct (H' "20" 20) as (H'' & _); [reflexivity|reflexivity|].
    apply H''. reflexivity.
Defined.

(** ** Settings from one run to the next *)






(** ** White space around a command *)

Lemma rstrip_rstrip (s : string) : Py.rstrip (Py.rstrip s) = Py.rstrip s.
Proof.
  induction s as [|c s IH]; [reflexivity|].
  cbn [Py.rstrip]. destruct (Py.rstrip s) as [|a r] eqn:E.
  - destruct (Py.isspace c) eqn:Hc; [reflexivity|].
    cbn [Py.rstrip]. rewrite Hc. reflexivity.
  - cbn [Py.rstrip]. cbn [Py.rstrip] in IH. rewrite IH. reflexivity.
Qed.

Lemma lstrip_head (s : string) :
  Py.lstrip s = EmptyString
  \/ exists c r, Py.lstrip s = String c r /\ Py.isspace c = false.
Proof.
  induction s as [|c s IH]; [left; reflexivity|].
  cbn [Py.lstrip]. destruct (Py.isspace c) eqn:Hc; [exact IH|].
  right. exists c, s. auto.
Qed.

Lemma rstrip_head (c : ascii) (r : string) :
  Py.isspace c = false -> exists r', Py.rstrip (String c r) = String c r'.
Proof.
  intros Hc. cbn [Py.rstrip]. destruct (Py.rstrip r) as [|a r'].
  - rewrite Hc. eauto.
  - eauto.
Qed.

Lemma strip_strip (s : string) : Py.strip (Py.strip s) = Py.strip s.
Proof.
  unfold Py.strip. destruct (lstrip_head s) as [E|(c & r & E & Hc)]; rewrite E.
  - reflexivity.
  - destruct (rstrip_head c r Hc) as (r' & E'). rewrite E'.
    rewrite (lstrip_first c r' Hc), <- E'. apply rstrip_rstrip.
Qed.

(** X15: white space before or after a command does not count: the
    loop treats a line like the same line stripped, and a stripped
    line neither starts nor ends with white space. *)
Theorem X15_spaces_around_a_command (env : Env) (line : string) (w : World) :
  main_loop_body env (Py.strip line) w = main_loop_body env line w
  /\ (forall more, main_loop env (Py.strip line :: more) w
                   = main_loop env (line :: more) w)
  /\ (Py.strip line = EmptyString
      \/ exists c r, Py.strip line = String c r /\ Py.isspace c = false).
Proof.
  assert (E : main_loop_body env (Py.strip line) w = main_loop_body env line w)
    by (unfold main_loop_body; rewrite strip_strip; reflexivity).
  split; [exact E|]. split.
  - intros more. cbn [main_loop]. rewrite E. reflexivity.
  - unfold Py.strip. destruct (lstrip_head line) as [H|(c & r & H & Hc)]; rewrite H.
    + left. reflexivity.
    + right. destruct (rstrip_head c r Hc) as (r' & E'). rewrite E'. eauto.
Qed.
